(** * Pixel art generator: a shallow embedding of [python_tutorial_38d8ea.py]

    The script has two functions.  [generate_pixel_data] builds a
    checkerboard grid of palette colours with two nested [for] loops that
    append to local lists; [create_image_from_pixels] paints such a grid on
    a Pillow image and saves it, printing a status line.

    Python integers are [Z], lists are [list], strings are [string].  The
    statements of a function body are written in a state-and-exception
    monad: the state is the ambient world paired with the local variables
    of the running call, and an exception leaves the state as it was at the
    [raise]. *)

From Stdlib Require Import ZArith Lia Bool.
From stdpp Require Import base list strings gmap.

#[local] Open Scope Z_scope.

(** ** Python values and exceptions *)

(** An RGB tuple [(r, g, b)]. *)
Definition Color : Type := Z * Z * Z.

(** [list[list[tuple[int, int, int]]]]: a list of rows. *)
Definition PixelGrid : Type := list (list Color).

(** The built-in exceptions that can occur here.  In Python 3 [IOError] is
    another name of [OSError]; [PermissionError] and [FileNotFoundError] are
    subclasses of it. *)
Inductive exn : Type :=
| IndexError
| KeyError
| TypeError
| ValueError
| OSError
| PermissionError
| FileNotFoundError.

(** What [except IOError:] catches. *)
Definition isinstance_IOError (e : exn) : bool :=
  match e with
  | OSError | PermissionError | FileNotFoundError => true
  | IndexError | KeyError | TypeError | ValueError => false
  end.

(** How an expression or a statement ends. *)
Inductive outcome (A : Type) : Type :=
| Normal (a : A)
| Raised (e : exn).
Arguments Normal {A} a.
Arguments Raised {A} e.

(** [len(l)]. *)
Definition len {A} (l : list A) : Z := Z.of_nat (length l).

(** [range(n)]: [0, 1, ..., n-1], empty when [n <= 0]. *)
Definition range (n : Z) : list Z := seqZ 0 n.

(** [l[i]]: a negative subscript counts from the end, anything outside
    [-len(l) <= i < len(l)] raises [IndexError]. *)
Definition getitem {A} (l : list A) (i : Z) : outcome A :=
  let j := if i <? 0 then len l + i else i in
  if j <? 0 then Raised IndexError
  else match l !! Z.to_nat j with
       | Some a => Normal a
       | None => Raised IndexError
       end.

(** ** Statements: state and exceptions *)

Module Stmt.
Section Stmt.
Context {S : Type}.

Definition M (A : Type) : Type := S -> outcome A * S.

Definition ret {A} (a : A) : M A := fun s => (Normal a, s).

Definition bind {A B} (m : M A) (k : A -> M B) : M B :=
  fun s => match m s with
           | (Normal a, s') => k a s'
           | (Raised e, s') => (Raised e, s')
           end.

(** Evaluate an expression that may raise. *)
Definition eval {A} (o : outcome A) : M A := fun s => (o, s).

Definition gets {A} (f : S -> A) : M A := fun s => (Normal (f s), s).

Definition modify (f : S -> S) : M unit := fun s => (Normal tt, f s).

(** [for x in xs: body]. *)
Fixpoint for_ {X} (xs : list X) (body : X -> M unit) : M unit :=
  match xs with
  | [] => ret tt
  | x :: xs' => bind (body x) (fun _ => for_ xs' body)
  end.

(** [try: m except <catches>: handler]. *)
Definition try_except {A} (m : M A) (catches : exn -> bool) (handler : M A) : M A :=
  fun s => match m s with
           | (Normal a, s') => (Normal a, s')
           | (Raised e, s') => if catches e then handler s' else (Raised e, s')
           end.
End Stmt.
Arguments M : clear implicits.

(** A call: the body runs on the caller's world with its own local
    variables, which are dropped when it returns or raises. *)
Definition call {W L A} (locals : L) (body : M (W * L) A) : M W A :=
  fun w => let '(r, (w', _)) := body (w, locals) in (r, w').

Definition modify_local {W L} (f : L -> L) : M (W * L) unit :=
  modify (fun s => (s.1, f s.2)).

Definition gets_local {W L A} (f : L -> A) : M (W * L) A :=
  gets (fun s => f s.2).
End Stmt.
Import Stmt.

Declare Scope stmt_scope.
Delimit Scope stmt_scope with stmt.
Notation "x <- m ;; k" := (bind m (fun x => k))
  (at level 100, m at next level, right associativity) : stmt_scope.
Notation "m ;; k" := (bind m (fun _ => k))
  (at level 100, right associativity) : stmt_scope.

(** ** 2. Generating the pixel data *)

(** The test of the [if] in the inner loop (line 63).  Python's [%] takes
    the sign of the divisor, as [Z.modulo] does, so [x % 2] is 0 or 1 for
    every integer. *)
Definition pattern_condition (x y : Z) : bool :=
  ((x mod 2 =? 0) && (y mod 2 =? 0)) || (negb (x mod 2 =? 0) && negb (y mod 2 =? 0)).

(** [color_index] after the [if]/[else]. *)
Definition color_index (x y : Z) : Z :=
  if pattern_condition x y then 0 else 1.

(** The section 4.1 wording of the same choice:
    [parity = (x mod 2 == 0) == (y mod 2 == 0)], index 0 when it is true. *)
Definition spec_parity (x y : Z) : bool :=
  Bool.eqb (x mod 2 =? 0) (y mod 2 =? 0).

Definition spec_color_index (x y : Z) : Z :=
  if spec_parity x y then 0 else 1.

(** The two local lists of [generate_pixel_data]. *)
Record gen_locals : Type := GenLocals { pixel_grid : PixelGrid; row : list Color }.

(** Locals on entry; both names are assigned before they are read. *)
Definition gen_entry : gen_locals := GenLocals [] [].

Definition set_pixel_grid (g : PixelGrid) (l : gen_locals) : gen_locals :=
  GenLocals g (row l).

Definition set_row (r : list Color) (l : gen_locals) : gen_locals :=
  GenLocals (pixel_grid l) r.

Section Generator.
Context {W : Type}.

(** One pass of the inner loop body (lines 63-78). *)
Definition gen_cell (palette : list Color) (y x : Z) : M (W * gen_locals) unit :=
  (selected_color <- eval (getitem palette (color_index x y)) ;;
   modify_local (fun l => set_row (row l ++ [selected_color]) l))%stmt.

(** One pass of the outer loop body (lines 53-81). *)
Definition gen_row (width : Z) (palette : list Color) (y : Z) : M (W * gen_locals) unit :=
  (modify_local (set_row []) ;;
   for_ (range width) (gen_cell palette y) ;;
   modify_local (fun l => set_pixel_grid (pixel_grid l ++ [row l]) l))%stmt.

Definition generate_body (width height : Z) (palette : list Color)
  : M (W * gen_locals) PixelGrid :=
  (modify_local (set_pixel_grid []) ;;
   for_ (range height) (gen_row width palette) ;;
   gets_local pixel_grid)%stmt.

Definition generate_pixel_data (width height : Z) (palette : list Color) : M W PixelGrid :=
  call gen_entry (generate_body width height palette).
End Generator.

(** ** 3. Creating the image from pixel data *)

(** The part of Pillow the script calls.  The library is not part of the
    script, so its behaviour is an interface: [Image_new width height] is
    [Image.new('RGB', (width, height))], [putpixel] returns the updated
    image or raises, and [save] acts on the file system and may raise. *)
Class PIL : Type := {
  Image : Type;
  FileSystem : Type;
  Image_new : Z -> Z -> Image;
  putpixel : Image -> Z * Z -> Color -> outcome Image;
  save : Image -> string -> FileSystem -> outcome unit * FileSystem;
}.

(** What the script can affect: the lines printed and the files. *)
Record World {pil : PIL} : Type := MkWorld { stdout : list string; fs : FileSystem }.
Arguments MkWorld {pil} stdout fs.

Section Writer.
Context {pil : PIL}.

(** [print(s)]. *)
Definition print (s : string) : M World unit :=
  modify (fun w => MkWorld (stdout w ++ [s]) (fs w)).

(** A statement on the world alone, inside a block that has locals. *)
Definition on_world {L A} (m : M World A) : M (World * L) A :=
  fun s => let '(r, w') := m s.1 in (r, (w', s.2)).

(** [img.putpixel(xy, color)] on the local [img]. *)
Definition img_putpixel (xy : Z * Z) (color : Color) : M (World * Image) unit :=
  fun s => match putpixel s.2 xy color with
           | Normal img' => (Normal tt, (s.1, img'))
           | Raised e => (Raised e, s)
           end.

(** [img.save(output_filename)]. *)
Definition img_save (output_filename : string) : M (World * Image) unit :=
  fun s => let '(r, fs') := save s.2 output_filename (fs s.1) in
           (r, (MkWorld (stdout s.1) fs', s.2)).

(** Lines 111-116. *)
Definition paint (pixel_data : PixelGrid) (width height : Z) : M (World * Image) unit :=
  for_ (range height) (fun y =>
    for_ (range width) (fun x =>
      (row_y <- eval (getitem pixel_data y) ;;
       color <- eval (getitem row_y x) ;;
       img_putpixel (x, y) color)%stmt)).

(** Lines 119-123. *)
Definition save_and_report (output_filename : string) : M (World * Image) unit :=
  try_except
    (img_save output_filename ;;
     on_world (print ("Image saved successfully as " +:+ output_filename)))%stmt
    isinstance_IOError
    (on_world (print ("Error: Could not save image to " +:+ output_filename))).

(** The function returns [None] on every path that returns. *)
Definition create_image_from_pixels (pixel_data : PixelGrid) (output_filename : string)
  : M World unit :=
  let height := len pixel_data in
  if height =? 0 then print "Error: Pixel data is empty."
  else
    (row_0 <- eval (getitem pixel_data 0) ;;
     let width := len row_0 in
     if width =? 0 then print "Error: Pixel data rows are empty."
     else
       call (Image_new width height)
            (paint pixel_data width height ;; save_and_report output_filename))%stmt.
End Writer.

(** ** Example usage *)

(** The module-level constants (lines 17-29). *)
Definition GRID_WIDTH : Z := 32.
Definition GRID_HEIGHT : Z := 32.

Definition COLOR_PALETTE : list Color :=
  [(50, 50, 50); (200, 200, 200); (0, 100, 200); (255, 150, 0)].

Section Script.
Context {pil : PIL}.

(** The block under [if __name__ == "__main__":] (lines 129-139). *)
Definition main : M World unit :=
  (print "Generating pixel art..." ;;
   generated_data <- generate_pixel_data GRID_WIDTH GRID_HEIGHT COLOR_PALETTE ;;
   create_image_from_pixels generated_data "my_pixel_art.png" ;;
   print "Done!")%stmt.
End Script.

(** ** A reference model of Pillow and of the file system

    An image is its size and its rows; a file system is the images stored
    by path and a set of paths that cannot be written. *)

Record ref_image : Type := RefImage { im_width : Z; im_height : Z; im_rows : PixelGrid }.

Record ref_fs : Type := RefFS { contents : gmap string ref_image; read_only : gset string }.

Definition ref_new (width height : Z) : ref_image :=
  RefImage width height (replicate (Z.to_nat height) (replicate (Z.to_nat width) (0, 0, 0))).

Definition ref_putpixel (img : ref_image) (xy : Z * Z) (color : Color) : outcome ref_image :=
  let '(x, y) := xy in
  if (0 <=? x) && (x <? im_width img) && (0 <=? y) && (y <? im_height img) then
    Normal (RefImage (im_width img) (im_height img)
              (alter (fun r => <[Z.to_nat x := color]> r) (Z.to_nat y) (im_rows img)))
  else Raised IndexError.

Definition ref_save (img : ref_image) (path : string) (f : ref_fs) : outcome unit * ref_fs :=
  if decide (path ∈ read_only f) then (Raised PermissionError, f)
  else (Normal tt, RefFS (<[path := img]> (contents f)) (read_only f)).

Definition RefPIL : PIL :=
  {| Image := ref_image; FileSystem := ref_fs;
     Image_new := ref_new; putpixel := ref_putpixel; save := ref_save |}.

(** Nothing printed, no file, and ["locked.png"] not writable. *)
Definition ref_world : @World RefPIL :=
  @MkWorld RefPIL [] (RefFS ∅ {["locked.png"%string]}).

(** What can be observed of a reference image: it is a well-formed
    [width] by [height] image, and the colour of a pixel (black outside). *)
Definition ref_has_size (img : ref_image) (width height : Z) : Prop :=
  im_width img = width /\ im_height img = height /\
  length (im_rows img) = Z.to_nat height /\
  Forall (fun r => length r = Z.to_nat width) (im_rows img).

Definition ref_getpixel (img : ref_image) (xy : Z * Z) : Color :=
  default (0, 0, 0) (im_rows img !! Z.to_nat xy.2 ≫= fun r => r !! Z.to_nat xy.1).

(** ** Vocabulary of the properties *)

(** [grid[y][x]]. *)
Definition grid_cell (grid : PixelGrid) (x y : Z) : outcome Color :=
  match getitem grid y with
  | Normal row_y => getitem row_y x
  | Raised e => Raised e
  end.

(** Each channel of the colour is in 0..255 (the comment at lines 21-22). *)
Definition valid_color (c : Color) : Prop :=
  let '(r, g, b) := c in 0 <= r <= 255 /\ 0 <= g <= 255 /\ 0 <= b <= 255.

(** What the script relies on from Pillow, as assumptions on an instance
    of the interface, stated with two observations of an image, its size
    and [getpixel]: a new image has the size asked for; on an image of that
    size, [putpixel] at a position inside it with a colour of channels in
    0..255 succeeds, keeps the size, sets that pixel and leaves the other
    pixels as they were. *)
Record pil_laws {pil : PIL}
    (has_size : Image -> Z -> Z -> Prop) (getpixel : Image -> Z * Z -> Color) : Prop :=
  PilLaws {
    new_has_size : forall width height,
      0 < width -> 0 < height -> has_size (Image_new width height) width height;
    putpixel_in_bounds : forall img width height x y c,
      has_size img width height -> 0 <= x < width -> 0 <= y < height -> valid_color c ->
      exists img',
        putpixel img (x, y) c = Normal img' /\
        has_size img' width height /\
        getpixel img' (x, y) = c /\
        forall x' y', 0 <= x' < width -> 0 <= y' < height -> (x', y') <> (x, y) ->
          getpixel img' (x', y') = getpixel img (x', y')
  }.

(** The invariants of the two loops of the writer: in the state [s] the
    world is still [world], the image has the size asked for, and the rows
    [0 .. y-1] of the image show the grid. *)
Definition rows_painted {pil : PIL}
    (has_size : Image -> Z -> Z -> Prop) (getpixel : Image -> Z * Z -> Color)
    (pixel_data : PixelGrid) (world : World) (width height y : Z)
    (s : World * Image) : Prop :=
  s.1 = world /\ has_size s.2 width height /\
  forall x' y', 0 <= x' < width -> 0 <= y' < y ->
    grid_cell pixel_data x' y' = Normal (getpixel s.2 (x', y')).

(** And so do the columns [0 .. x-1] of row [y]. *)
Definition cells_painted {pil : PIL}
    (has_size : Image -> Z -> Z -> Prop) (getpixel : Image -> Z * Z -> Color)
    (pixel_data : PixelGrid) (world : World) (width height y x : Z)
    (s : World * Image) : Prop :=
  rows_painted has_size getpixel pixel_data world width height y s /\
  forall x', 0 <= x' < x -> grid_cell pixel_data x' y = Normal (getpixel s.2 (x', y)).

(** How [save_and_report] ends after [save] ended with [r]: the line it
    prints, and whether the exception is caught. *)
Definition reported {pil : PIL} (output_filename : string) (world : World)
    (r : outcome unit * FileSystem) : outcome unit * World :=
  match r with
  | (Normal _, fs') =>
      (Normal tt,
       MkWorld (stdout world ++ ["Image saved successfully as " +:+ output_filename]) fs')
  | (Raised e, fs') =>
      if isinstance_IOError e
      then (Normal tt,
            MkWorld (stdout world ++ ["Error: Could not save image to " +:+ output_filename]) fs')
      else (Raised e, MkWorld (stdout world) fs')
  end.

(** The colour the pattern puts at column [x] of row [y] when the palette
    starts with [a], [b]. *)
Definition checker_cell (a b : Color) (y x : Z) : Color :=
  if pattern_condition x y then a else b.

Definition checker_row (a b : Color) (width y : Z) : list Color :=
  checker_cell a b y <$> range width.

Definition checker_grid (a b : Color) (width height : Z) : PixelGrid :=
  checker_row a b width <$> range height.

(** Some cell of a [width] by [height] grid needs a palette entry that a
    palette of fewer than two entries lacks: there is a cell, and either no
    entry at all or a second cell (the cells (1, 0) and (0, 1) use index 1). *)
Definition needs_missing_entry (width height : Z) (palette : list Color) : Prop :=
  1 <= width /\ 1 <= height /\ (len palette = 0 \/ 2 <= width \/ 2 <= height).

(** A block that neither reads nor writes the world: from given locals its
    outcome and final locals are the same in every world, and the world is
    left as it was. *)
Definition world_blind {W L A} (m : M (W * L) A) : Prop :=
  forall l, exists r l', forall w, m (w, l) = (r, (w, l')).

(** * Properties *)

(** ** Subscripts and ranges *)

Lemma len_range (n : Z) : len (range n) = Z.max 0 n.
Proof. unfold len, range. rewrite length_seqZ. lia. Qed.

Lemma len_fmap {A B} (f : A -> B) (l : list A) : len (f <$> l) = len l.
Proof. unfold len. by rewrite length_fmap. Qed.

Lemma range_nonpos (n : Z) : n <= 0 -> range n = [].
Proof. apply seqZ_nil. Qed.

Lemma range_pos (n : Z) : 0 < n -> range n = 0 :: seqZ 1 (n - 1).
Proof. intros Hn. unfold range. by rewrite seqZ_cons. Qed.

Lemma getitem_fmap_range {A} (f : Z -> A) (n i : Z) :
  0 <= i < n -> getitem (f <$> range n) i = Normal (f i).
Proof.
  intros Hi. unfold getitem.
  destruct (i <? 0) eqn:Hneg; [lia|].
  rewrite Hneg, list_lookup_fmap. unfold range.
  rewrite lookup_seqZ_lt by lia. simpl. f_equal. f_equal. lia.
Qed.

Lemma at_least_two {A} (l : list A) : 2 <= len l -> exists a b r, l = a :: b :: r.
Proof.
  destruct l as [|a [|b r]]; unfold len; simpl; try lia. eauto.
Qed.

Lemma at_most_one {A} (l : list A) : len l < 2 -> l = [] \/ exists a, l = [a].
Proof.
  destruct l as [|a [|b r]]; unfold len; simpl; try lia; eauto.
Qed.

Lemma getitem_take_2 {A} (l : list A) (i : Z) :
  i = 0 \/ i = 1 -> getitem (take 2 l) i = getitem l i.
Proof.
  intros [-> | ->]; by destruct l as [|a [|b r]].
Qed.

(** ** The pattern *)

Lemma mod_2_cases (x : Z) : x mod 2 = 0 \/ x mod 2 = 1.
Proof. pose proof (Z.mod_pos_bound x 2). lia. Qed.

Lemma pattern_condition_same_parity (x y : Z) :
  pattern_condition x y = (x mod 2 =? y mod 2).
Proof.
  unfold pattern_condition.
  destruct (mod_2_cases x) as [-> | ->], (mod_2_cases y) as [-> | ->]; reflexivity.
Qed.

Lemma color_index_cases (x y : Z) : color_index x y = 0 \/ color_index x y = 1.
Proof. unfold color_index. destruct (pattern_condition x y); auto. Qed.

(** ** Statements *)

Lemma for_ext {S X} (xs : list X) (f g : X -> M S unit) :
  (forall x s, f x s = g x s) -> forall s, for_ xs f s = for_ xs g s.
Proof.
  intros Hfg. induction xs as [|x xs IH]; intros s; simpl; [done|].
  unfold bind. rewrite Hfg. destruct (g x s) as [[[]|e] s']; [apply IH | done].
Qed.

Lemma blind_eval {W L A} (o : outcome A) : world_blind (W:=W) (L:=L) (eval o).
Proof. intros l. by exists o, l. Qed.

Lemma blind_modify_local {W L} (f : L -> L) : world_blind (W:=W) (modify_local f).
Proof. intros l. by exists (Normal tt), (f l). Qed.

Lemma blind_gets_local {W L A} (f : L -> A) : world_blind (W:=W) (gets_local f).
Proof. intros l. by exists (Normal (f l)), l. Qed.

Lemma blind_bind {W L A B} (m : M (W * L) A) (k : A -> M (W * L) B) :
  world_blind m -> (forall a, world_blind (k a)) -> world_blind (bind m k).
Proof.
  intros Hm Hk l. destruct (Hm l) as (r & l1 & Hr). destruct r as [a|e].
  - destruct (Hk a l1) as (r2 & l2 & Hr2). exists r2, l2. intros w.
    unfold bind. by rewrite Hr, Hr2.
  - exists (Raised e), l1. intros w. unfold bind. by rewrite Hr.
Qed.

Lemma blind_for {W L X} (xs : list X) (body : X -> M (W * L) unit) :
  (forall x, world_blind (body x)) -> world_blind (for_ xs body).
Proof.
  intros Hbody. induction xs as [|x xs IH]; simpl.
  - intros l. by exists (Normal tt), l.
  - apply blind_bind; [apply Hbody | intros _; apply IH].
Qed.

(** ** The generator *)

Section GeneratorFacts.
Context {W : Type}.
Implicit Types (w : W) (l : gen_locals) (palette : list Color).

Lemma gen_cell_two a b rest y x w l :
  gen_cell (a :: b :: rest) y x (w, l)
  = (Normal tt, (w, set_row (row l ++ [checker_cell a b y x]) l)).
Proof.
  unfold gen_cell, checker_cell, color_index.
  by destruct (pattern_condition x y).
Qed.

Lemma inner_loop_two a b rest y xs w l :
  for_ xs (gen_cell (a :: b :: rest) y) (w, l)
  = (Normal tt, (w, set_row (row l ++ (checker_cell a b y <$> xs)) l)).
Proof.
  revert l. induction xs as [|x xs IH]; intros l; simpl.
  - destruct l. unfold ret, set_row. simpl. by rewrite app_nil_r.
  - unfold bind at 1. rewrite gen_cell_two, IH.
    unfold set_row. simpl. by rewrite <- app_assoc.
Qed.

Lemma gen_row_two a b rest width y w l :
  gen_row width (a :: b :: rest) y (w, l)
  = (Normal tt, (w, GenLocals (pixel_grid l ++ [checker_row a b width y])
                             (checker_row a b width y))).
Proof.
  unfold gen_row, bind, modify_local, modify. simpl.
  by rewrite inner_loop_two.
Qed.

Lemma gen_row_no_columns width palette y w l :
  width <= 0 ->
  gen_row width palette y (w, l) = (Normal tt, (w, GenLocals (pixel_grid l ++ [[]]) [])).
Proof.
  intros Hw. unfold gen_row. by rewrite range_nonpos.
Qed.

(** The outer loop, for a body that appends the row [rowf y]. *)
Lemma outer_loop_rows (body : Z -> M (W * gen_locals) unit) (rowf : Z -> list Color) :
  (forall y w l, body y (w, l)
                 = (Normal tt, (w, GenLocals (pixel_grid l ++ [rowf y]) (rowf y)))) ->
  forall ys w l, exists r,
    for_ ys body (w, l) = (Normal tt, (w, GenLocals (pixel_grid l ++ (rowf <$> ys)) r)).
Proof.
  intros Hbody ys. induction ys as [|y ys IH]; intros w l; simpl.
  - exists (row l). destruct l. unfold ret. simpl. by rewrite app_nil_r.
  - unfold bind. rewrite Hbody.
    destruct (IH w (GenLocals (pixel_grid l ++ [rowf y]) (rowf y))) as [r Hr].
    exists r. rewrite Hr. simpl. by rewrite <- app_assoc.
Qed.

Lemma generate_rows width height palette (rowf : Z -> list Color) :
  (forall y w l, gen_row width palette y (w, l)
                 = (Normal tt, (w, GenLocals (pixel_grid l ++ [rowf y]) (rowf y)))) ->
  forall w, generate_pixel_data width height palette w = (Normal (rowf <$> range height), w).
Proof.
  intros Hrow w. unfold generate_pixel_data, call, generate_body.
  unfold bind at 1. simpl.
  destruct (outer_loop_rows _ _ Hrow (range height) w (set_pixel_grid [] gen_entry))
    as [r Hr].
  unfold bind. by rewrite Hr.
Qed.

Lemma generate_two a b rest width height w :
  generate_pixel_data width height (a :: b :: rest) w
  = (Normal (checker_grid a b width height), w).
Proof. apply generate_rows. intros y w' l. apply gen_row_two. Qed.

Lemma generate_no_columns width height palette w :
  width <= 0 ->
  generate_pixel_data width height palette w
  = (Normal (replicate (Z.to_nat height) []), w).
Proof.
  intros Hw. rewrite (generate_rows width height palette (fun _ => [])).
  - do 2 f_equal. unfold range, seqZ. rewrite <- list_fmap_compose.
    rewrite (const_fmap _ _ []) by done. by rewrite length_seq.
  - intros y w' l. by apply gen_row_no_columns.
Qed.

Lemma generate_no_rows width height palette w :
  height <= 0 -> generate_pixel_data width height palette w = (Normal [], w).
Proof.
  intros Hh. unfold generate_pixel_data, call, generate_body.
  by rewrite range_nonpos.
Qed.

Lemma gen_cell_take_2 palette y x s :
  gen_cell (W:=W) (take 2 palette) y x s = gen_cell palette y x s.
Proof.
  unfold gen_cell, bind, eval.
  by rewrite getitem_take_2 by apply color_index_cases.
Qed.

Lemma gen_row_take_2 width palette y s :
  gen_row (W:=W) width (take 2 palette) y s = gen_row width palette y s.
Proof.
  unfold gen_row, bind. destruct (modify_local _ s) as [[[]|e] s1]; [|done].
  by rewrite (for_ext _ _ _ (gen_cell_take_2 palette y)).
Qed.

Lemma generate_take_2 width height palette w :
  generate_pixel_data width height (take 2 palette) w
  = generate_pixel_data width height palette w.
Proof.
  unfold generate_pixel_data, call, generate_body, bind.
  destruct (modify_local _ _) as [[[]|e] s1]; [|done].
  by rewrite (for_ext _ _ _ (gen_row_take_2 width palette)).
Qed.

Lemma blind_generate_body width height palette :
  world_blind (generate_body (W:=W) width height palette).
Proof.
  unfold generate_body.
  apply blind_bind; [apply blind_modify_local | intros _].
  apply blind_bind; [|intros _; apply blind_gets_local].
  apply blind_for. intros y. unfold gen_row.
  apply blind_bind; [apply blind_modify_local | intros _].
  apply blind_bind; [|intros _; apply blind_modify_local].
  apply blind_for. intros x. unfold gen_cell.
  apply blind_bind; [apply blind_eval | intros c; apply blind_modify_local].
Qed.
End GeneratorFacts.

(** ** Claims about the generator *)

(** C1 (parity pattern).  For width >= 1, height >= 1 and a palette of at
    least two entries, the call returns a grid whose cell [grid[y][x]], for
    0 <= x < width and 0 <= y < height, is [palette[0]] when
    [x mod 2 = y mod 2] and [palette[1]] otherwise. *)
Theorem generate_pixel_data_parity_pattern {W} (w : W) (width height : Z) (palette : list Color) :
  1 <= width -> 1 <= height -> 2 <= len palette ->
  exists grid a b,
    generate_pixel_data width height palette w = (Normal grid, w) /\
    getitem palette 0 = Normal a /\ getitem palette 1 = Normal b /\
    forall x y, 0 <= x < width -> 0 <= y < height ->
      exists row_y, getitem grid y = Normal row_y /\
        getitem row_y x = Normal (if x mod 2 =? y mod 2 then a else b).
Proof.
  intros _ _ Hp. destruct (at_least_two palette Hp) as (a & b & rest & ->).
  exists (checker_grid a b width height), a, b.
  split; [apply generate_two|]. do 2 (split; [reflexivity|]).
  intros x y Hx Hy. exists (checker_row a b width y). split.
  - unfold checker_grid. by apply getitem_fmap_range.
  - unfold checker_row. rewrite getitem_fmap_range by done.
    unfold checker_cell. by rewrite pattern_condition_same_parity.
Qed.

Lemma generate_pixel_data_parity_pattern_witness :
  exists grid a b,
    generate_pixel_data 3 2 [(1, 1, 1); (2, 2, 2); (3, 3, 3)] tt = (Normal grid, tt) /\
    getitem [(1, 1, 1); (2, 2, 2); (3, 3, 3)] 0 = Normal a /\
    getitem [(1, 1, 1); (2, 2, 2); (3, 3, 3)] 1 = Normal b /\
    forall x y, 0 <= x < 3 -> 0 <= y < 2 ->
      exists row_y, getitem grid y = Normal row_y /\
        getitem row_y x = Normal (if x mod 2 =? y mod 2 then a else b).
Proof.
  apply (generate_pixel_data_parity_pattern tt 3 2 [(1, 1, 1); (2, 2, 2); (3, 3, 3)]).
  - lia.
  - lia.
  - unfold len. simpl. lia.
Defined.

(** C2 (shape).  For positive width and height and a palette of at least
    two entries, the call returns a grid of exactly [height] rows, each of
    exactly [width] colours. *)
Theorem generate_pixel_data_shape {W} (w : W) (width height : Z) (palette : list Color) :
  1 <= width -> 1 <= height -> 2 <= len palette ->
  exists grid,
    generate_pixel_data width height palette w = (Normal grid, w) /\
    len grid = height /\
    Forall (fun row_y => len row_y = width) grid.
Proof.
  intros Hw Hh Hp. destruct (at_least_two palette Hp) as (a & b & rest & ->).
  exists (checker_grid a b width height).
  split; [apply generate_two|]. unfold checker_grid. split.
  - rewrite len_fmap, len_range. lia.
  - apply Forall_fmap, Forall_forall. intros y _. simpl.
    unfold checker_row. rewrite len_fmap, len_range. lia.
Qed.

Lemma generate_pixel_data_shape_witness :
  exists grid,
    generate_pixel_data 5 3 [(0, 0, 0); (255, 255, 255)] tt = (Normal grid, tt) /\
    len grid = 3 /\
    Forall (fun row_y => len row_y = 5) grid.
Proof.
  apply (generate_pixel_data_shape tt 5 3 [(0, 0, 0); (255, 255, 255)]).
  - lia.
  - lia.
  - unfold len. simpl. lia.
Defined.

(** C3 as stated fails on the code.  A one-entry palette is accepted when
    only index 0 is needed, and in the scenario [generate(2, 2, [(1,2,3)])]
    the exception is the [IndexError] of the subscript [palette[1]], raised
    when the first row already holds a cell. *)
Lemma palette_underflow_counterexample :
  len [(1, 2, 3)] < 2 /\
  generate_pixel_data 1 1 [(1, 2, 3)] tt = (Normal [[(1, 2, 3)]], tt) /\
  generate_body 2 2 [(1, 2, 3)] (tt, gen_entry)
  = (Raised IndexError, (tt, GenLocals [] [(1, 2, 3)])).
Proof. split; [reflexivity|]. split; reflexivity. Qed.

(** C3, amended.  There is no check before the loops.  With fewer than two
    palette entries the call raises [IndexError] (and so returns no grid)
    exactly when some cell needs a missing entry: width and height at least
    1 and the palette empty or more than one cell.  Otherwise it returns a
    grid. *)
Theorem generate_pixel_data_palette_underflow {W} (w : W) (width height : Z) (palette : list Color) :
  len palette < 2 ->
  (needs_missing_entry width height palette ->
   generate_pixel_data width height palette w = (Raised IndexError, w)) /\
  (~ needs_missing_entry width height palette ->
   exists grid, generate_pixel_data width height palette w = (Normal grid, w)).
Proof.
  intros Hp. unfold needs_missing_entry. split.
  - intros (Hw & Hh & Hneed).
    unfold generate_pixel_data, call, generate_body, bind at 1. simpl.
    destruct (at_most_one palette Hp) as [-> | [c ->]].
    + rewrite (range_pos height) by lia. simpl. unfold bind at 1, gen_row.
      by rewrite (range_pos width) by lia.
    + destruct (Z_lt_le_dec width 2) as [Hw1 | Hw2].
      * assert (width = 1) as -> by lia.
        assert (2 <= height) as Hh2 by (unfold len in Hneed; simpl in Hneed; lia).
        rewrite (range_pos height), (seqZ_cons 1) by lia. reflexivity.
      * rewrite (range_pos height) by lia. simpl. unfold bind at 1, gen_row.
        by rewrite (range_pos width), (seqZ_cons 1) by lia.
  - intros Hfits.
    destruct (Z_lt_le_dec height 1) as [Hh | Hh].
    { exists []. apply generate_no_rows. lia. }
    destruct (Z_lt_le_dec width 1) as [Hw | Hw].
    { eexists. apply generate_no_columns. lia. }
    destruct (at_most_one palette Hp) as [-> | [c ->]].
    + exfalso. apply Hfits. unfold len. simpl. lia.
    + assert (width = 1) as -> by lia. assert (height = 1) as -> by lia.
      by exists [[c]].
Qed.

Lemma generate_pixel_data_palette_underflow_witness :
  generate_pixel_data 2 2 [(1, 2, 3)] tt = (Raised IndexError, tt).
Proof.
  apply (generate_pixel_data_palette_underflow tt 2 2 [(1, 2, 3)]).
  - unfold len. simpl. lia.
  - unfold needs_missing_entry. lia.
Defined.

(** C6 (determinism).  The call has no hidden input: run in any two worlds
    with the same arguments it ends the same way (the same grid, or the
    same exception), and it leaves the world as it found it. *)
Theorem generate_pixel_data_deterministic {W} (w1 w2 : W) (width height : Z) (palette : list Color) :
  (generate_pixel_data width height palette w1).1
  = (generate_pixel_data width height palette w2).1 /\
  (generate_pixel_data width height palette w1).2 = w1.
Proof.
  destruct (blind_generate_body (W:=W) width height palette gen_entry) as (r & l' & Hr).
  unfold generate_pixel_data, call. by rewrite !Hr.
Qed.

(** C7 (concrete scenarios).  [generate(4, 2, [(50,50,50), (200,200,200)])]
    is the two rows given, and [generate(1, 1, palette)] is
    [[[palette[0]]]] for every palette that has an entry 0. *)
Theorem generate_pixel_data_scenarios {W} (w : W) :
  generate_pixel_data 4 2 [(50, 50, 50); (200, 200, 200)] w
  = (Normal [[(50, 50, 50); (200, 200, 200); (50, 50, 50); (200, 200, 200)];
             [(200, 200, 200); (50, 50, 50); (200, 200, 200); (50, 50, 50)]], w) /\
  forall (palette : list Color) (c : Color),
    getitem palette 0 = Normal c ->
    generate_pixel_data 1 1 palette w = (Normal [[c]], w).
Proof.
  split; [reflexivity|].
  intros palette c Hc.
  destruct palette as [|c0 rest]; [discriminate Hc|].
  injection Hc as ->. reflexivity.
Qed.

Lemma generate_pixel_data_scenarios_witness :
  generate_pixel_data 1 1 [(7, 8, 9); (1, 1, 1)] tt = (Normal [[(7, 8, 9)]], tt).
Proof.
  apply (proj2 (generate_pixel_data_scenarios tt) [(7, 8, 9); (1, 1, 1)] (7, 8, 9)).
  reflexivity.
Defined.

(** C8 (refinement).  For all integers x and y the condition of the code,
    [(x % 2 == 0 and y % 2 == 0) or (x % 2 != 0 and y % 2 != 0)], equals
    the parity predicate [(x mod 2 == 0) == (y mod 2 == 0)] of the
    specification, so both select the same palette index. *)
Theorem pattern_condition_refines_spec_parity (x y : Z) :
  pattern_condition x y = spec_parity x y /\
  color_index x y = spec_color_index x y.
Proof.
  assert (pattern_condition x y = spec_parity x y) as Heq.
  { unfold pattern_condition, spec_parity.
    by destruct (x mod 2 =? 0), (y mod 2 =? 0). }
  split; [done|]. unfold color_index, spec_color_index. by rewrite Heq.
Qed.

(** C9 (entries beyond index 1 are not consulted).  Two palettes of at
    least two entries that agree on entries 0 and 1 give the same result
    for every width and height. *)
Theorem generate_pixel_data_ignores_palette_tail {W} (w : W) (width height : Z)
    (palette1 palette2 : list Color) :
  2 <= len palette1 -> 2 <= len palette2 ->
  getitem palette1 0 = getitem palette2 0 ->
  getitem palette1 1 = getitem palette2 1 ->
  generate_pixel_data width height palette1 w = generate_pixel_data width height palette2 w.
Proof.
  intros H1 H2 E0 E1.
  destruct (at_least_two palette1 H1) as (a1 & b1 & r1 & ->).
  destruct (at_least_two palette2 H2) as (a2 & b2 & r2 & ->).
  injection E0 as ->. injection E1 as ->.
  rewrite <- (generate_take_2 width height (a2 :: b2 :: r1)).
  by rewrite <- (generate_take_2 width height (a2 :: b2 :: r2)).
Qed.

Lemma generate_pixel_data_ignores_palette_tail_witness :
  generate_pixel_data 32 32 [(50, 50, 50); (200, 200, 200); (0, 100, 200); (255, 150, 0)] tt
  = generate_pixel_data 32 32 [(50, 50, 50); (200, 200, 200)] tt.
Proof.
  apply (generate_pixel_data_ignores_palette_tail tt 32 32
           [(50, 50, 50); (200, 200, 200); (0, 100, 200); (255, 150, 0)]
           [(50, 50, 50); (200, 200, 200)]).
  - unfold len. simpl. lia.
  - unfold len. simpl. lia.
  - reflexivity.
  - reflexivity.
Defined.

(** C10 (non-positive dimensions).  With height <= 0 the call returns the
    empty grid, and with width <= 0 and height > 0 it returns [height]
    empty rows; in both cases for every palette, the empty one included,
    and without an exception. *)
Theorem generate_pixel_data_nonpositive_dimensions {W} (w : W) (width height : Z)
    (palette : list Color) :
  (height <= 0 -> generate_pixel_data width height palette w = (Normal [], w)) /\
  (width <= 0 -> 0 < height ->
   generate_pixel_data width height palette w = (Normal (replicate (Z.to_nat height) []), w)).
Proof.
  split.
  - apply generate_no_rows.
  - intros Hw _. by apply generate_no_columns.
Qed.

Lemma generate_pixel_data_nonpositive_dimensions_witness :
  generate_pixel_data 4 (-1) [] tt = (Normal [], tt) /\
  generate_pixel_data 0 2 [] tt = (Normal [[]; []], tt).
Proof.
  split.
  - apply (proj1 (generate_pixel_data_nonpositive_dimensions tt 4 (-1) [])). lia.
  - apply (proj2 (generate_pixel_data_nonpositive_dimensions tt 0 2 [])); lia.
Defined.

(** ** The writer *)

Section WriterFacts.
Context {pil : PIL}.

Lemma getitem_0_nonempty {A} (l : list A) (a : A) :
  getitem l 0 = Normal a -> len l <> 0.
Proof. by destruct l. Qed.

(** Painting changes the image only. *)
Lemma img_putpixel_keeps_world xy color s r s' :
  img_putpixel xy color s = (r, s') -> s'.1 = s.1.
Proof.
  unfold img_putpixel. destruct (putpixel s.2 xy color); by intros [= <- <-].
Qed.

Lemma for_keeps_world {X} (body : X -> M (World * Image) unit) (xs : list X) :
  (forall x s r s', body x s = (r, s') -> s'.1 = s.1) ->
  forall s r s', for_ xs body s = (r, s') -> s'.1 = s.1.
Proof.
  intros Hbody. induction xs as [|x xs IH]; intros s r s'; simpl.
  - by intros [= <- <-].
  - unfold bind. destruct (body x s) as [[[]|e] s1] eqn:Hx.
    + intros Hrest. rewrite (IH _ _ _ Hrest). by eapply Hbody.
    + intros [= <- <-]. by eapply Hbody.
Qed.

Lemma paint_keeps_world pixel_data width height s r s' :
  paint pixel_data width height s = (r, s') -> s'.1 = s.1.
Proof.
  unfold paint. apply for_keeps_world. intros y. apply for_keeps_world.
  intros x s0 r0 s0'. unfold bind, eval.
  destruct (getitem pixel_data y) as [row_y|e]; [|by intros [= <- <-]].
  destruct (getitem row_y x) as [color|e]; [|by intros [= <- <-]].
  apply img_putpixel_keeps_world.
Qed.
End WriterFacts.

(** ** Claims about the writer *)

(** C4 as stated fails on the code.  For a grid without rows, and for one
    whose first row is empty, the call prints a line and returns normally,
    exactly as a call that saved the image returns; no exception reaches
    the caller. *)
Lemma empty_input_counterexample :
  create_image_from_pixels (pil:=RefPIL) [] "art.png" ref_world
  = (Normal tt, MkWorld ["Error: Pixel data is empty."%string] (fs ref_world)) /\
  create_image_from_pixels (pil:=RefPIL) [[]] "art.png" ref_world
  = (Normal tt, MkWorld ["Error: Pixel data rows are empty."%string] (fs ref_world)) /\
  (create_image_from_pixels (pil:=RefPIL) [[(1, 2, 3)]] "art.png" ref_world).1 = Normal tt.
Proof. split; [reflexivity|]. split; [reflexivity|]. vm_compute. reflexivity. Qed.

(** C4, amended.  Given a grid with zero rows, or one whose first row has
    zero length, the writer raises nothing: it prints
    ["Error: Pixel data is empty."], respectively
    ["Error: Pixel data rows are empty."], returns [None], and leaves the
    file system untouched. *)
Theorem create_image_from_pixels_empty_input {pil : PIL} (world : World)
    (pixel_data : PixelGrid) (output_filename : string) :
  len pixel_data = 0 \/ getitem pixel_data 0 = Normal [] ->
  create_image_from_pixels pixel_data output_filename world
  = (Normal tt,
     MkWorld (stdout world ++ [if len pixel_data =? 0
                               then "Error: Pixel data is empty."%string
                               else "Error: Pixel data rows are empty."%string])
             (fs world)).
Proof.
  intros [Hrows | Hrow]; unfold create_image_from_pixels.
  - by rewrite Hrows.
  - pose proof (getitem_0_nonempty _ _ Hrow) as Hne.
    destruct (len pixel_data =? 0) eqn:Hz; [lia|].
    unfold bind, eval. by rewrite Hrow.
Qed.

Lemma create_image_from_pixels_empty_input_witness :
  create_image_from_pixels (pil:=RefPIL) [[]; [(1, 2, 3)]] "art.png" ref_world
  = (Normal tt, MkWorld ([] ++ ["Error: Pixel data rows are empty."%string]) (fs ref_world)).
Proof.
  apply (create_image_from_pixels_empty_input (pil:=RefPIL) ref_world
           [[]; [(1, 2, 3)]] "art.png").
  right. reflexivity.
Defined.

(** C5 as stated fails on the code.  When [save] raises
    [PermissionError], the call catches it, prints a line that names the
    path but not the cause, and returns normally. *)
Lemma write_error_counterexample :
  ref_save (RefImage 1 1 [[(1, 2, 3)]]) "locked.png" (fs ref_world)
  = (Raised PermissionError, fs ref_world) /\
  create_image_from_pixels (pil:=RefPIL) [[(1, 2, 3)]] "locked.png" ref_world
  = (Normal tt,
     MkWorld ["Error: Could not save image to locked.png"%string] (fs ref_world)).
Proof. split; vm_compute; reflexivity. Qed.

(** C5, amended.  When the grid is painted and the one call of [save]
    raises [e], there is no retry: the file system is the one that call
    left.  If [e] is an [IOError], the writer catches it, prints
    ["Error: Could not save image to <path>"] and returns [None]; any other
    exception propagates to the caller. *)
Theorem create_image_from_pixels_save_failure {pil : PIL} (world : World)
    (pixel_data : PixelGrid) (output_filename : string)
    (row_0 : list Color) (img : Image) (e : exn) (fs' : FileSystem) :
  getitem pixel_data 0 = Normal row_0 ->
  len row_0 <> 0 ->
  paint pixel_data (len row_0) (len pixel_data)
        (world, Image_new (len row_0) (len pixel_data))
  = (Normal tt, (world, img)) ->
  save img output_filename (fs world) = (Raised e, fs') ->
  create_image_from_pixels pixel_data output_filename world
  = if isinstance_IOError e
    then (Normal tt,
          MkWorld (stdout world ++ ["Error: Could not save image to " +:+ output_filename]) fs')
    else (Raised e, MkWorld (stdout world) fs').
Proof.
  intros Hrow Hwidth Hpaint Hsave.
  pose proof (getitem_0_nonempty _ _ Hrow) as Hheight.
  unfold create_image_from_pixels.
  destruct (len pixel_data =? 0) eqn:Hz; [lia|].
  unfold bind at 1, eval. rewrite Hrow.
  destruct (len row_0 =? 0) eqn:Hz'; [lia|].
  unfold call, bind. rewrite Hpaint.
  unfold save_and_report, try_except, bind, img_save. simpl. rewrite Hsave.
  by destruct (isinstance_IOError e).
Qed.

Lemma create_image_from_pixels_save_failure_witness :
  create_image_from_pixels (pil:=RefPIL) [[(1, 2, 3)]] "locked.png" ref_world
  = if isinstance_IOError PermissionError
    then (Normal tt,
          MkWorld (stdout ref_world ++ ["Error: Could not save image to " +:+ "locked.png"])
                  (fs ref_world))
    else (Raised PermissionError, MkWorld (stdout ref_world) (fs ref_world)).
Proof.
  apply (create_image_from_pixels_save_failure (pil:=RefPIL) ref_world
           [[(1, 2, 3)]] "locked.png" [(1, 2, 3)] (RefImage 1 1 [[(1, 2, 3)]])
           PermissionError (fs ref_world)).
  - reflexivity.
  - unfold len. simpl. lia.
  - reflexivity.
  - vm_compute. reflexivity.
Defined.

(** * Further properties *)

(** ** Loops *)

Lemma getitem_in_range {A} (l : list A) (i : Z) :
  0 <= i < len l -> exists a, l !! Z.to_nat i = Some a /\ getitem l i = Normal a.
Proof.
  intros Hi. unfold getitem.
  destruct (i <? 0) eqn:Hneg; [lia|]. rewrite Hneg.
  destruct (lookup_lt_is_Some_2 l (Z.to_nat i)) as [a Ha]; [unfold len in Hi; lia|].
  exists a. by rewrite Ha.
Qed.

Lemma getitem_past_end {A} (l : list A) : getitem l (len l) = Raised IndexError.
Proof.
  unfold getitem. pose proof (Nat2Z.is_nonneg (length l)) as Hl. fold (len l) in Hl.
  destruct (len l <? 0) eqn:Hneg; [lia|]. rewrite Hneg.
  unfold len. by rewrite Nat2Z.id, lookup_ge_None_2.
Qed.

Lemma elem_of_range (n i : Z) : i ∈ range n <-> 0 <= i < n.
Proof.
  unfold range. rewrite list_elem_of_lookup. split.
  - intros [k Hk]. apply lookup_seqZ in Hk. lia.
  - intros Hi. exists (Z.to_nat i). apply lookup_seqZ. lia.
Qed.

Lemma for_ext_in {S X} (xs : list X) (f g : X -> M S unit) :
  (forall x s, x ∈ xs -> f x s = g x s) -> forall s, for_ xs f s = for_ xs g s.
Proof.
  induction xs as [|x xs IH]; intros Hfg s; simpl; [done|].
  unfold bind. rewrite Hfg by apply list_elem_of_here.
  destruct (g x s) as [[[]|e] s']; [|done].
  apply IH. intros x' s0 Hx'. apply Hfg. by apply list_elem_of_further.
Qed.

(** A loop raises when one of its passes raises from every state. *)
Lemma for_raises {S X} (xs : list X) (body : X -> M S unit) (x : X) :
  x ∈ xs -> (forall s, exists e s', body x s = (Raised e, s')) ->
  forall s, exists e s', for_ xs body s = (Raised e, s').
Proof.
  intros Hx Hraise. induction xs as [|x0 xs IH]; intros s.
  - by apply not_elem_of_nil in Hx.
  - simpl. unfold bind. destruct (body x0 s) as [[[]|e] s1] eqn:H0.
    + apply elem_of_cons in Hx as [-> | Hx].
      * destruct (Hraise s) as (e & s' & He). congruence.
      * by apply IH.
    + by exists e, s1.
Qed.

(** An exception of a loop is the exception of one of its passes. *)
Lemma for_raised_from {S X} (xs : list X) (body : X -> M S unit) s e s' :
  for_ xs body s = (Raised e, s') ->
  exists x s0, x ∈ xs /\ body x s0 = (Raised e, s').
Proof.
  revert s. induction xs as [|x xs IH]; intros s; simpl.
  - intros [=].
  - unfold bind. destruct (body x s) as [[[]|e0] s1] eqn:Hx.
    + intros Hrest. destruct (IH _ Hrest) as (x' & s0 & Hin & Hb).
      exists x', s0. split; [by apply list_elem_of_further | done].
    + intros [= <- <-]. exists x, s. split; [apply list_elem_of_here | done].
Qed.

(** A loop over [seqZ m k] that keeps an invariant indexed by the counter. *)
Lemma for_seqZ_invariant {St} (body : Z -> M St unit) (I : Z -> St -> Prop) (k : nat) :
  forall m s,
    I m s ->
    (forall i s0, m <= i < m + Z.of_nat k -> I i s0 ->
                  exists s1, body i s0 = (Normal tt, s1) /\ I (i + 1) s1) ->
    exists s', for_ (seqZ m (Z.of_nat k)) body s = (Normal tt, s') /\ I (m + Z.of_nat k) s'.
Proof.
  induction k as [|k IH]; intros m s Hs Hstep.
  - exists s. simpl. by rewrite Z.add_0_r.
  - rewrite seqZ_cons by lia. simpl for_. unfold bind.
    destruct (Hstep m s) as (s1 & Hb & Hs1); [lia | done |]. rewrite Hb.
    replace (Z.pred (Z.of_nat (S k))) with (Z.of_nat k) by lia.
    destruct (IH (Z.succ m) s1) as (s' & Hfor & Hs').
    + by replace (Z.succ m) with (m + 1) by lia.
    + intros i s0 Hi. apply Hstep. lia.
    + exists s'. split; [done|].
      by replace (m + Z.of_nat (S k)) with (Z.succ m + Z.of_nat k) by lia.
Qed.

Lemma for_range_invariant {S} (body : Z -> M S unit) (I : Z -> S -> Prop) (n : Z) s :
  0 <= n -> I 0 s ->
  (forall i s0, 0 <= i < n -> I i s0 ->
                exists s1, body i s0 = (Normal tt, s1) /\ I (i + 1) s1) ->
  exists s', for_ (range n) body s = (Normal tt, s') /\ I n s'.
Proof.
  intros Hn Hs Hstep. unfold range.
  destruct (for_seqZ_invariant body I (Z.to_nat n) 0 s Hs) as (s' & Hfor & Hs').
  - intros i s0 Hi. apply Hstep. lia.
  - rewrite Z2Nat.id in Hfor, Hs' by done. by exists s'.
Qed.

(** ** Subscripts *)

Lemma getitem_raises {A} (l : list A) (i : Z) (e : exn) :
  getitem l i = Raised e -> e = IndexError.
Proof.
  unfold getitem. destruct (_ <? 0); [congruence|].
  destruct (l !! _); congruence.
Qed.

Lemma getitem_Normal_lt {A} (l : list A) (i : Z) (a : A) :
  0 <= i -> getitem l i = Normal a -> i < len l.
Proof.
  intros Hi. unfold getitem.
  destruct (i <? 0) eqn:Hneg; [lia|]. rewrite Hneg.
  destruct (l !! Z.to_nat i) eqn:Hl; [|done].
  intros _. apply lookup_lt_Some in Hl. unfold len. lia.
Qed.

Lemma getitem_fmap {A B} (f : A -> B) (l : list A) (i : Z) :
  getitem (f <$> l) i
  = match getitem l i with Normal a => Normal (f a) | Raised e => Raised e end.
Proof.
  unfold getitem. rewrite len_fmap.
  destruct (_ <? 0); [done|].
  rewrite list_lookup_fmap. by destruct (l !! _).
Qed.

Lemma getitem_take {A} (l : list A) (n : nat) (i : Z) :
  0 <= i < Z.of_nat n -> getitem (take n l) i = getitem l i.
Proof.
  intros Hi. unfold getitem.
  destruct (i <? 0) eqn:Hneg; [lia|]. rewrite Hneg.
  by rewrite lookup_take_lt by lia.
Qed.

(** ** The writer, for every behaviour of Pillow *)

Section WriterPaths.
Context {pil : PIL}.

(** Past the two guards, the call is the painting followed by the save. *)
Lemma create_image_from_pixels_paints (world : World) (pixel_data : PixelGrid)
    (output_filename : string) (row_0 : list Color) :
  getitem pixel_data 0 = Normal row_0 -> len row_0 <> 0 ->
  create_image_from_pixels pixel_data output_filename world
  = call (Image_new (len row_0) (len pixel_data))
         (paint pixel_data (len row_0) (len pixel_data) ;;
          save_and_report output_filename)%stmt world.
Proof.
  intros Hrow Hwidth. pose proof (getitem_0_nonempty _ _ Hrow) as Hheight.
  unfold create_image_from_pixels.
  destruct (len pixel_data =? 0) eqn:Hz; [lia|].
  unfold bind at 1, eval. rewrite Hrow.
  by destruct (len row_0 =? 0) eqn:Hz'; [lia|].
Qed.

Lemma save_and_report_reported (output_filename : string) (world : World) (img : Image) :
  (let '(r, s) := save_and_report output_filename (world, img) in (r, s.1))
  = reported output_filename world (save img output_filename (fs world)).
Proof.
  unfold save_and_report, try_except, bind, img_save, reported. simpl.
  destruct (save img output_filename (fs world)) as [[[]|e] fs']; simpl; [done|].
  by destruct (isinstance_IOError e).
Qed.

Lemma create_image_from_pixels_painted (world : World) (pixel_data : PixelGrid)
    (output_filename : string) (row_0 : list Color) (img : Image) :
  getitem pixel_data 0 = Normal row_0 -> len row_0 <> 0 ->
  paint pixel_data (len row_0) (len pixel_data)
        (world, Image_new (len row_0) (len pixel_data))
  = (Normal tt, (world, img)) ->
  create_image_from_pixels pixel_data output_filename world
  = reported output_filename world (save img output_filename (fs world)).
Proof.
  intros Hrow Hwidth Hpaint.
  rewrite (create_image_from_pixels_paints _ _ _ _ Hrow Hwidth).
  unfold call, bind. rewrite Hpaint.
  rewrite <- save_and_report_reported.
  by destruct (save_and_report output_filename (world, img)) as [r [w' img']].
Qed.

Lemma paint_raised_from pixel_data width height s e s' :
  paint pixel_data width height s = (Raised e, s') ->
  e = IndexError \/ exists img xy c, putpixel img xy c = Raised e.
Proof.
  unfold paint. intros Hp.
  apply for_raised_from in Hp as (y & s0 & _ & Hy).
  apply for_raised_from in Hy as (x & s1 & _ & Hx).
  revert Hx. unfold bind, eval.
  destruct (getitem pixel_data y) as [row_y|e0] eqn:Hrow.
  - destruct (getitem row_y x) as [c|e1] eqn:Hc.
    + unfold img_putpixel. destruct (putpixel s1.2 (x, y) c) eqn:Hput; [done|].
      intros [= <- <-]. right. eauto.
    + intros [= <- <-]. left. by eapply getitem_raises.
  - intros [= <- <-]. left. by eapply getitem_raises.
Qed.

Lemma paint_short_row_raises pixel_data width height (y : Z) (row_y : list Color) :
  0 <= y < height -> getitem pixel_data y = Normal row_y -> len row_y < width ->
  forall s, exists e s', paint pixel_data width height s = (Raised e, s').
Proof.
  intros Hy Hrow Hshort. unfold paint.
  apply (for_raises _ _ y); [by apply elem_of_range|].
  apply (for_raises _ _ (len row_y)).
  - apply elem_of_range. unfold len in *. lia.
  - intros s. exists IndexError, s. unfold bind, eval.
    by rewrite Hrow, getitem_past_end.
Qed.
End WriterPaths.

(** X1 (a successful save).  When the grid is painted and [save] returns,
    the writer prints ["Image saved successfully as <path>"] and returns
    [None]; the file system is the one that single [save] left. *)
Theorem create_image_from_pixels_save_success {pil : PIL} (world : World)
    (pixel_data : PixelGrid) (output_filename : string)
    (row_0 : list Color) (img : Image) (fs' : FileSystem) :
  getitem pixel_data 0 = Normal row_0 ->
  len row_0 <> 0 ->
  paint pixel_data (len row_0) (len pixel_data)
        (world, Image_new (len row_0) (len pixel_data))
  = (Normal tt, (world, img)) ->
  save img output_filename (fs world) = (Normal tt, fs') ->
  create_image_from_pixels pixel_data output_filename world
  = (Normal tt,
     MkWorld (stdout world ++ ["Image saved successfully as " +:+ output_filename]) fs').
Proof.
  intros Hrow Hwidth Hpaint Hsave.
  rewrite (create_image_from_pixels_painted _ _ _ _ _ Hrow Hwidth Hpaint).
  unfold reported. by rewrite Hsave.
Qed.

Lemma create_image_from_pixels_save_success_witness :
  create_image_from_pixels (pil:=RefPIL) [[(1, 2, 3); (4, 5, 6)]] "art.png" ref_world
  = (Normal tt,
     @MkWorld RefPIL (stdout ref_world ++ ["Image saved successfully as " +:+ "art.png"])
       (RefFS {["art.png"%string := RefImage 2 1 [[(1, 2, 3); (4, 5, 6)]]]}
              {["locked.png"%string]})).
Proof.
  apply (create_image_from_pixels_save_success (pil:=RefPIL) ref_world
           [[(1, 2, 3); (4, 5, 6)]] "art.png" [(1, 2, 3); (4, 5, 6)]
           (RefImage 2 1 [[(1, 2, 3); (4, 5, 6)]])).
  - reflexivity.
  - unfold len. simpl. lia.
  - reflexivity.
  - vm_compute. reflexivity.
Defined.

(** X2 (an exception while painting).  The [try] covers the save only: an
    exception raised by a subscript or by [putpixel] in the loops, an
    [IOError] included, reaches the caller; nothing is printed and [save]
    is not called. *)
Theorem create_image_from_pixels_paint_failure {pil : PIL} (world : World)
    (pixel_data : PixelGrid) (output_filename : string)
    (row_0 : list Color) (e : exn) (s' : World * Image) :
  getitem pixel_data 0 = Normal row_0 ->
  len row_0 <> 0 ->
  paint pixel_data (len row_0) (len pixel_data)
        (world, Image_new (len row_0) (len pixel_data))
  = (Raised e, s') ->
  create_image_from_pixels pixel_data output_filename world = (Raised e, world).
Proof.
  intros Hrow Hwidth Hpaint.
  rewrite (create_image_from_pixels_paints _ _ _ _ Hrow Hwidth).
  unfold call, bind. rewrite Hpaint.
  apply paint_keeps_world in Hpaint. destruct s' as [w' img']. simpl in Hpaint.
  by rewrite Hpaint.
Qed.

Lemma create_image_from_pixels_paint_failure_witness :
  create_image_from_pixels (pil:=RefPIL) [[(1, 2, 3); (4, 5, 6)]; [(7, 8, 9)]] "art.png"
                           ref_world
  = (Raised IndexError, ref_world).
Proof.
  apply (create_image_from_pixels_paint_failure (pil:=RefPIL) ref_world
           [[(1, 2, 3); (4, 5, 6)]; [(7, 8, 9)]] "art.png" [(1, 2, 3); (4, 5, 6)]
           IndexError
           (ref_world, RefImage 2 2 [[(1, 2, 3); (4, 5, 6)]; [(7, 8, 9); (0, 0, 0)]])).
  - reflexivity.
  - unfold len. simpl. lia.
  - reflexivity.
Defined.

(** X3 (a row shorter than the first).  The width is the length of row 0
    and no other row is measured.  If some row is shorter, the call ends
    with an exception, either the [IndexError] of a subscript or one that
    [putpixel] raised; nothing is printed and no file is written. *)
Theorem create_image_from_pixels_short_row {pil : PIL} (world : World)
    (pixel_data : PixelGrid) (output_filename : string)
    (row_0 : list Color) (y : Z) (row_y : list Color) :
  getitem pixel_data 0 = Normal row_0 ->
  0 <= y -> getitem pixel_data y = Normal row_y ->
  len row_y < len row_0 ->
  exists e,
    create_image_from_pixels pixel_data output_filename world = (Raised e, world) /\
    (e = IndexError \/ exists img xy c, putpixel img xy c = Raised e).
Proof.
  intros Hrow Hy Hrow_y Hshort.
  assert (len row_0 <> 0) as Hwidth by (unfold len in *; lia).
  pose proof (getitem_Normal_lt _ _ _ Hy Hrow_y) as Hlt.
  destruct (paint_short_row_raises pixel_data (len row_0) (len pixel_data) y row_y
              (conj Hy Hlt) Hrow_y Hshort
              (world, Image_new (len row_0) (len pixel_data))) as (e & s' & Hpaint).
  exists e. split; [|by eapply paint_raised_from].
  rewrite (create_image_from_pixels_paints _ _ _ _ Hrow Hwidth).
  unfold call, bind. rewrite Hpaint.
  apply paint_keeps_world in Hpaint. destruct s' as [w' img']. simpl in Hpaint.
  by rewrite Hpaint.
Qed.

Lemma create_image_from_pixels_short_row_witness :
  exists e,
    create_image_from_pixels (pil:=RefPIL) [[(1, 2, 3); (4, 5, 6)]; [(7, 8, 9)]] "art.png"
                             ref_world
    = (Raised e, ref_world) /\
    (e = IndexError \/ exists img xy c, putpixel (PIL:=RefPIL) img xy c = Raised e).
Proof.
  apply (create_image_from_pixels_short_row (pil:=RefPIL) ref_world
           [[(1, 2, 3); (4, 5, 6)]; [(7, 8, 9)]] "art.png" [(1, 2, 3); (4, 5, 6)]
           1 [(7, 8, 9)]).
  - reflexivity.
  - lia.
  - reflexivity.
  - unfold len. simpl. lia.
Defined.

(** X4 (columns past the width).  Cells of a row beyond the length of row
    0 are never read: cutting every row to that length changes nothing in
    what the call prints, writes, returns or raises. *)
Theorem create_image_from_pixels_ignores_columns_past_width {pil : PIL} (world : World)
    (pixel_data : PixelGrid) (output_filename : string) (row_0 : list Color) :
  getitem pixel_data 0 = Normal row_0 ->
  create_image_from_pixels (take (length row_0) <$> pixel_data) output_filename world
  = create_image_from_pixels pixel_data output_filename world.
Proof.
  intros Hrow.
  unfold create_image_from_pixels. rewrite len_fmap.
  destruct (len pixel_data =? 0); [done|].
  unfold bind at 1 3, eval. rewrite getitem_fmap, Hrow, take_ge by done.
  destruct (len row_0 =? 0); [done|].
  assert (forall s, paint (take (length row_0) <$> pixel_data) (len row_0) (len pixel_data) s
                    = paint pixel_data (len row_0) (len pixel_data) s) as Hpaint.
  { intros s. unfold paint.
    apply for_ext_in. intros y s0 _.
    apply for_ext_in. intros x s1 Hx. apply elem_of_range in Hx.
    unfold bind, eval. rewrite getitem_fmap.
    destruct (getitem pixel_data y) as [row_y|e]; [|done].
    by rewrite getitem_take. }
  unfold call, bind. by rewrite Hpaint.
Qed.

Lemma create_image_from_pixels_ignores_columns_past_width_witness :
  create_image_from_pixels (pil:=RefPIL)
    (take (length [(1, 2, 3)]) <$> [[(1, 2, 3)]; [(4, 5, 6); (7, 8, 9)]]) "art.png" ref_world
  = create_image_from_pixels (pil:=RefPIL)
      [[(1, 2, 3)]; [(4, 5, 6); (7, 8, 9)]] "art.png" ref_world.
Proof.
  apply (create_image_from_pixels_ignores_columns_past_width (pil:=RefPIL) ref_world
           [[(1, 2, 3)]; [(4, 5, 6); (7, 8, 9)]] "art.png" [(1, 2, 3)]).
  reflexivity.
Defined.

(** ** The painted image, for a Pillow that keeps its laws *)

Section PaintedImage.
Context {pil : PIL}.
Context (has_size : Image -> Z -> Z -> Prop) (getpixel : Image -> Z * Z -> Color).
Context (laws : pil_laws has_size getpixel).

Lemma paint_cell_step pixel_data world width height y x s :
  Forall (fun row_y => width <= len row_y) pixel_data ->
  Forall (Forall valid_color) pixel_data ->
  0 <= y < height -> height = len pixel_data -> 0 <= x < width ->
  cells_painted has_size getpixel pixel_data world width height y x s ->
  exists s1,
    (row_y <- eval (getitem pixel_data y) ;;
     color <- eval (getitem row_y x) ;;
     img_putpixel (x, y) color)%stmt s = (Normal tt, s1) /\
    cells_painted has_size getpixel pixel_data world width height y (x + 1) s1.
Proof.
  intros Hlong Hvalid Hy -> Hx ((Hw & Hsize & Hrows) & Hcells).
  destruct (getitem_in_range pixel_data y Hy) as (row_y & Hlook & Hrow).
  pose proof (Forall_lookup_1 _ _ _ _ Hlong Hlook) as Hlen. simpl in Hlen.
  destruct (getitem_in_range row_y x) as (c & Hlookc & Hc); [lia|].
  pose proof (Forall_lookup_1 _ _ _ _ (Forall_lookup_1 _ _ _ _ Hvalid Hlook) Hlookc) as Hcv.
  destruct (putpixel_in_bounds _ _ laws s.2 _ _ x y c Hsize Hx Hy Hcv)
    as (img' & Hput & Hsize' & Hget & Hothers).
  exists (s.1, img'). split.
  - unfold bind, eval, img_putpixel. by rewrite Hrow, Hc, Hput.
  - split; [split; [done | split; [done|]]|]; simpl.
    + intros x' y' Hx' Hy'. rewrite Hothers; [by apply Hrows | done | lia |].
      intros [= -> ->]. lia.
    + intros x' Hx'. destruct (decide (x' = x)) as [-> | Hne].
      * unfold grid_cell. by rewrite Hrow, Hc, Hget.
      * rewrite Hothers; [apply Hcells; lia | lia | done |].
        intros [= ->]. done.
Qed.

Lemma paint_row_step pixel_data world width height y s :
  Forall (fun row_y => width <= len row_y) pixel_data ->
  Forall (Forall valid_color) pixel_data ->
  0 <= width -> 0 <= y < height -> height = len pixel_data ->
  rows_painted has_size getpixel pixel_data world width height y s ->
  exists s1,
    for_ (range width) (fun x =>
      (row_y <- eval (getitem pixel_data y) ;;
       color <- eval (getitem row_y x) ;;
       img_putpixel (x, y) color)%stmt) s = (Normal tt, s1) /\
    rows_painted has_size getpixel pixel_data world width height (y + 1) s1.
Proof.
  intros Hlong Hvalid Hwidth Hy Hheight Hrows.
  destruct (for_range_invariant
              (fun x => (row_y <- eval (getitem pixel_data y) ;;
                         color <- eval (getitem row_y x) ;;
                         img_putpixel (x, y) color)%stmt)
              (cells_painted has_size getpixel pixel_data world width height y) width s Hwidth)
    as (s1 & Hfor & (Hw & Hsize & Hrows1) & Hcells).
  - split; [done|]. intros x' Hx'. lia.
  - intros x s0 Hx Hs0. by eapply paint_cell_step.
  - exists s1. split; [done|]. split; [done | split; [done|]].
    intros x' y' Hx' Hy'. destruct (decide (y' = y)) as [-> | Hne].
    + by apply Hcells.
    + apply Hrows1; [done | lia].
Qed.

(** Painting a grid whose rows are all at least as long as the width, with
    colours of channels in 0..255, raises nothing and yields an image of
    the asked size that shows [pixel_data[y][x]] at every [(x, y)]. *)
Lemma paint_shows_grid pixel_data world width height :
  0 < width -> 0 < height -> height = len pixel_data ->
  Forall (fun row_y => width <= len row_y) pixel_data ->
  Forall (Forall valid_color) pixel_data ->
  exists img,
    paint pixel_data width height (world, Image_new width height)
    = (Normal tt, (world, img)) /\
    has_size img width height /\
    forall x y, 0 <= x < width -> 0 <= y < height ->
      grid_cell pixel_data x y = Normal (getpixel img (x, y)).
Proof.
  intros Hwidth Hheight Hlen Hlong Hvalid. unfold paint.
  destruct (for_range_invariant
              (fun y => for_ (range width) (fun x =>
                 (row_y <- eval (getitem pixel_data y) ;;
                  color <- eval (getitem row_y x) ;;
                  img_putpixel (x, y) color)%stmt))
              (rows_painted has_size getpixel pixel_data world width height) height
              (world, Image_new width height))
    as ([w' img] & Hfor & Hw & Hsize & Hrows).
  - lia.
  - split; [done|]. split; [by apply (new_has_size _ _ laws)|]. intros x' y' _ Hy'. lia.
  - intros y s0 Hy Hs0. apply paint_row_step; [done | done | lia | done | done | done].
  - simpl in Hw. subst w'. by exists img.
Qed.
End PaintedImage.

(** The reference model keeps the laws. *)
Lemma ref_pil_laws : pil_laws (pil:=RefPIL) ref_has_size ref_getpixel.
Proof.
  split.
  - intros width height _ _. unfold ref_has_size, ref_new. simpl.
    rewrite length_replicate. repeat split.
    apply Forall_replicate. by rewrite length_replicate.
  - intros [iw ih rows] width height x y c (Hw & Hh & Hlen & Hrows) Hx Hy _.
    simpl in Hw, Hh, Hlen, Hrows. subst iw ih. unfold PixelGrid in rows.
    assert ((0 <=? x) = true) as Hx0 by lia.
    assert ((x <? width) = true) as Hx1 by lia.
    assert ((0 <=? y) = true) as Hy0 by lia.
    assert ((y <? height) = true) as Hy1 by lia.
    destruct (lookup_lt_is_Some_2 rows (Z.to_nat y)) as [r Hr]; [lia|].
    pose proof (Forall_lookup_1 _ _ _ _ Hrows Hr) as Hlr. simpl in Hlr.
    exists (RefImage width height
              (alter (fun r => <[Z.to_nat x := c]> r) (Z.to_nat y) rows)).
    split; [|split; [|split]].
    + unfold putpixel. simpl. by rewrite Hx0, Hx1, Hy0, Hy1.
    + unfold ref_has_size. cbn [im_width im_height im_rows].
      rewrite length_alter. repeat split; [done|].
      apply Forall_alter; [done|]. intros r' _ Hr'. by rewrite length_insert.
    + unfold ref_getpixel, PixelGrid. cbn [im_rows fst snd].
      rewrite list_lookup_alter_eq, Hr. simpl.
      assert (Z.to_nat x < length r)%nat as Hxr by lia.
      by rewrite list_lookup_insert_eq by exact Hxr.
    + intros x' y' Hx' Hy' Hne. unfold ref_getpixel, PixelGrid. cbn [im_rows fst snd].
      destruct (decide (y' = y)) as [-> | Hy_ne].
      * rewrite list_lookup_alter_eq, Hr. simpl.
        rewrite list_lookup_insert_ne; [done|]. intros Heq.
        apply Hne. f_equal. lia.
      * rewrite list_lookup_alter_ne; [done | lia].
Qed.

(** ** From the palette to the file *)

Lemma getitem_0_1 {A} (l : list A) (a b : A) :
  getitem l 0 = Normal a -> getitem l 1 = Normal b -> exists rest, l = a :: b :: rest.
Proof.
  destruct l as [|a' [|b' rest]]; try done.
  intros [= ->] [= ->]. by exists rest.
Qed.

Lemma valid_checker_grid a b width height :
  valid_color a -> valid_color b -> Forall (Forall valid_color) (checker_grid a b width height).
Proof.
  intros Ha Hb. unfold checker_grid. apply Forall_fmap, Forall_forall. intros y _. simpl.
  unfold checker_row. apply Forall_fmap, Forall_forall. intros x _. simpl.
  unfold checker_cell. by destruct (pattern_condition x y).
Qed.

Lemma grid_cell_checker_grid a b width height x y :
  0 <= x < width -> 0 <= y < height ->
  grid_cell (checker_grid a b width height) x y
  = Normal (if x mod 2 =? y mod 2 then a else b).
Proof.
  intros Hx Hy. unfold grid_cell, checker_grid. rewrite getitem_fmap_range by done.
  unfold checker_row. rewrite getitem_fmap_range by done.
  unfold checker_cell. by rewrite pattern_condition_same_parity.
Qed.

Section Pipeline.
Context {pil : PIL}.
Context (has_size : Image -> Z -> Z -> Prop) (getpixel : Image -> Z * Z -> Color).
Context (laws : pil_laws has_size getpixel).

(** The writer on the grid the generator returns. *)
Lemma checker_grid_written (world : World) (a b : Color) (width height : Z)
    (output_filename : string) :
  1 <= width -> 1 <= height -> valid_color a -> valid_color b ->
  exists img,
    has_size img width height /\
    (forall x y, 0 <= x < width -> 0 <= y < height ->
       getpixel img (x, y) = if x mod 2 =? y mod 2 then a else b) /\
    create_image_from_pixels (checker_grid a b width height) output_filename world
    = reported output_filename world (save img output_filename (fs world)).
Proof.
  intros Hwidth Hheight Ha Hb.
  assert (len (checker_grid a b width height) = height) as Hlen.
  { unfold checker_grid. rewrite len_fmap, len_range. lia. }
  assert (getitem (checker_grid a b width height) 0 = Normal (checker_row a b width 0))
    as Hrow by (unfold checker_grid; apply getitem_fmap_range; lia).
  assert (forall y, len (checker_row a b width y) = width) as Hlen_row.
  { intros y. unfold checker_row. rewrite len_fmap, len_range. lia. }
  destruct (paint_shows_grid has_size getpixel laws (checker_grid a b width height)
              world width height) as (img & Hpaint & Hsize & Hcells).
  - lia.
  - lia.
  - done.
  - unfold checker_grid. apply Forall_fmap, Forall_forall. intros y _. simpl.
    by rewrite Hlen_row.
  - by apply valid_checker_grid.
  - exists img. split; [done|]. split.
    + intros x y Hx Hy. specialize (Hcells x y Hx Hy).
      rewrite grid_cell_checker_grid in Hcells by done. by injection Hcells as <-.
    + apply (create_image_from_pixels_painted _ _ _ _ _ Hrow).
      * rewrite Hlen_row. lia.
      * by rewrite Hlen_row, Hlen.
Qed.
End Pipeline.

(** X5 (the image shows the grid).  With a Pillow that keeps its laws, for
    a grid whose first row is not empty, whose rows are all at least as
    long as the first and whose colours have channels in 0..255: the
    painting raises nothing, the image passed to the single [save] has
    width [len(pixel_data[0])] and height [len(pixel_data)] and shows
    [pixel_data[y][x]] at every [(x, y)], and the call ends as that [save]
    makes it end. *)
Theorem create_image_from_pixels_shows_grid {pil : PIL}
    (has_size : Image -> Z -> Z -> Prop) (getpixel : Image -> Z * Z -> Color)
    (world : World) (pixel_data : PixelGrid) (output_filename : string)
    (row_0 : list Color) :
  pil_laws has_size getpixel ->
  getitem pixel_data 0 = Normal row_0 ->
  len row_0 <> 0 ->
  Forall (fun row_y => len row_0 <= len row_y) pixel_data ->
  Forall (Forall valid_color) pixel_data ->
  exists img,
    has_size img (len row_0) (len pixel_data) /\
    (forall x y, 0 <= x < len row_0 -> 0 <= y < len pixel_data ->
       grid_cell pixel_data x y = Normal (getpixel img (x, y))) /\
    create_image_from_pixels pixel_data output_filename world
    = reported output_filename world (save img output_filename (fs world)).
Proof.
  intros laws Hrow Hwidth Hlong Hvalid.
  pose proof (getitem_0_nonempty _ _ Hrow) as Hheight.
  destruct (paint_shows_grid has_size getpixel laws pixel_data world
              (len row_0) (len pixel_data)) as (img & Hpaint & Hsize & Hcells);
    [unfold len in *; lia | unfold len in *; lia | done | done | done |].
  exists img. split; [done|]. split; [done|].
  by apply (create_image_from_pixels_painted _ _ _ _ _ Hrow).
Qed.

Lemma create_image_from_pixels_shows_grid_witness :
  exists img,
    ref_has_size img (len [(1, 2, 3); (4, 5, 6)])
                 (len [[(1, 2, 3); (4, 5, 6)]; [(7, 8, 9); (10, 11, 12); (13, 14, 15)]]) /\
    (forall x y,
       0 <= x < len [(1, 2, 3); (4, 5, 6)] ->
       0 <= y < len [[(1, 2, 3); (4, 5, 6)]; [(7, 8, 9); (10, 11, 12); (13, 14, 15)]] ->
       grid_cell [[(1, 2, 3); (4, 5, 6)]; [(7, 8, 9); (10, 11, 12); (13, 14, 15)]] x y
       = Normal (ref_getpixel img (x, y))) /\
    create_image_from_pixels (pil:=RefPIL)
      [[(1, 2, 3); (4, 5, 6)]; [(7, 8, 9); (10, 11, 12); (13, 14, 15)]] "art.png" ref_world
    = reported (pil:=RefPIL) "art.png" ref_world
        (save (PIL:=RefPIL) img "art.png" (fs ref_world)).
Proof.
  apply (create_image_from_pixels_shows_grid (pil:=RefPIL) ref_has_size ref_getpixel
           ref_world [[(1, 2, 3); (4, 5, 6)]; [(7, 8, 9); (10, 11, 12); (13, 14, 15)]]
           "art.png" [(1, 2, 3); (4, 5, 6)]).
  - exact ref_pil_laws.
  - reflexivity.
  - unfold len. simpl. lia.
  - repeat first [apply Forall_nil_2 | apply Forall_cons_2]; unfold len; simpl; lia.
  - repeat first [apply Forall_nil_2 | apply Forall_cons_2]; unfold valid_color; lia.
Defined.

(** X6 (the generator feeds the writer).  With a Pillow that keeps its
    laws, for width and height at least 1 and a palette whose entries 0
    and 1 have channels in 0..255, the grid that [generate_pixel_data]
    returns passes both guards of the writer and is painted without an
    exception: the image saved is [width] by [height] and its pixel
    [(x, y)] is [palette[0]] when [x mod 2 = y mod 2] and [palette[1]]
    otherwise. *)
Theorem generated_grid_written {pil : PIL}
    (has_size : Image -> Z -> Z -> Prop) (getpixel : Image -> Z * Z -> Color)
    (world : World) (width height : Z) (palette : list Color) (a b : Color)
    (output_filename : string) :
  pil_laws has_size getpixel ->
  1 <= width -> 1 <= height ->
  getitem palette 0 = Normal a -> getitem palette 1 = Normal b ->
  valid_color a -> valid_color b ->
  exists grid img,
    generate_pixel_data width height palette world = (Normal grid, world) /\
    has_size img width height /\
    (forall x y, 0 <= x < width -> 0 <= y < height ->
       getpixel img (x, y) = if x mod 2 =? y mod 2 then a else b) /\
    create_image_from_pixels grid output_filename world
    = reported output_filename world (save img output_filename (fs world)).
Proof.
  intros laws Hwidth Hheight H0 H1 Ha Hb.
  destruct (getitem_0_1 _ _ _ H0 H1) as [rest ->].
  destruct (checker_grid_written has_size getpixel laws world a b width height
              output_filename Hwidth Hheight Ha Hb) as (img & Hsize & Hpix & Hcreate).
  exists (checker_grid a b width height), img.
  split; [apply generate_two | done].
Qed.

Lemma generated_grid_written_witness :
  exists grid img,
    generate_pixel_data 3 2 [(10, 20, 30); (40, 50, 60)] ref_world
    = (Normal grid, ref_world) /\
    ref_has_size img 3 2 /\
    (forall x y, 0 <= x < 3 -> 0 <= y < 2 ->
       ref_getpixel img (x, y) = if x mod 2 =? y mod 2 then (10, 20, 30) else (40, 50, 60)) /\
    create_image_from_pixels (pil:=RefPIL) grid "art.png" ref_world
    = reported (pil:=RefPIL) "art.png" ref_world
        (save (PIL:=RefPIL) img "art.png" (fs ref_world)).
Proof.
  apply (generated_grid_written (pil:=RefPIL) ref_has_size ref_getpixel ref_world
           3 2 [(10, 20, 30); (40, 50, 60)] (10, 20, 30) (40, 50, 60) "art.png").
  - exact ref_pil_laws.
  - lia.
  - lia.
  - reflexivity.
  - reflexivity.
  - unfold valid_color. lia.
  - unfold valid_color. lia.
Defined.

(** X7 (the script).  With a Pillow that keeps its laws, the script prints
    ["Generating pixel art..."], paints a 32 by 32 image whose pixel
    [(x, y)] is (50, 50, 50) when [x mod 2 = y mod 2] and (200, 200, 200)
    otherwise, and calls [save] once, on ["my_pixel_art.png"].  If [save]
    returns, or raises an [IOError], the script prints the report of the
    writer and then ["Done!"], and ends normally in both cases; any other
    exception of [save] ends the script before ["Done!"]. *)
Theorem main_outcome {pil : PIL}
    (has_size : Image -> Z -> Z -> Prop) (getpixel : Image -> Z * Z -> Color)
    (world : World) :
  pil_laws has_size getpixel ->
  exists img,
    has_size img 32 32 /\
    (forall x y, 0 <= x < 32 -> 0 <= y < 32 ->
       getpixel img (x, y) = if x mod 2 =? y mod 2 then (50, 50, 50) else (200, 200, 200)) /\
    forall (r : outcome unit) (fs' : FileSystem),
      save img "my_pixel_art.png" (fs world) = (r, fs') ->
      main world
      = match r with
        | Normal _ =>
            (Normal tt,
             MkWorld (stdout world ++ ["Generating pixel art...";
                                       "Image saved successfully as my_pixel_art.png";
                                       "Done!"]%string) fs')
        | Raised e =>
            if isinstance_IOError e
            then (Normal tt,
                  MkWorld (stdout world ++ ["Generating pixel art...";
                                            "Error: Could not save image to my_pixel_art.png";
                                            "Done!"]%string) fs')
            else (Raised e, MkWorld (stdout world ++ ["Generating pixel art..."%string]) fs')
        end.
Proof.
  intros laws.
  set (world1 := MkWorld (stdout world ++ ["Generating pixel art..."%string]) (fs world)).
  destruct (checker_grid_written has_size getpixel laws world1
              (50, 50, 50) (200, 200, 200) 32 32 "my_pixel_art.png")
    as (img & Hsize & Hpix & Hcreate); [lia | lia | unfold valid_color; lia.. |].
  exists img. split; [done|]. split; [done|].
  intros r fs' Hsave.
  unfold main, bind at 1, print at 1, modify. fold world1.
  unfold bind at 1, GRID_WIDTH, GRID_HEIGHT, COLOR_PALETTE. rewrite generate_two.
  unfold bind at 1. rewrite Hcreate.
  change (fs world1) with (fs world). rewrite Hsave.
  unfold reported, print, modify. destruct r as [[]|e].
  - cbn [stdout fs world1]. by rewrite <- !app_assoc.
  - destruct (isinstance_IOError e); [|done].
    cbn [stdout fs world1]. by rewrite <- !app_assoc.
Qed.

Lemma main_outcome_witness :
  exists img,
    ref_has_size img 32 32 /\
    (forall x y, 0 <= x < 32 -> 0 <= y < 32 ->
       ref_getpixel img (x, y)
       = if x mod 2 =? y mod 2 then (50, 50, 50) else (200, 200, 200)) /\
    forall (r : outcome unit) (fs' : ref_fs),
      save (PIL:=RefPIL) img "my_pixel_art.png" (fs ref_world) = (r, fs') ->
      main (pil:=RefPIL) ref_world
      = match r with
        | Normal _ =>
            (Normal tt,
             @MkWorld RefPIL (stdout ref_world ++ ["Generating pixel art...";
                                       "Image saved successfully as my_pixel_art.png";
                                       "Done!"]%string) fs')
        | Raised e =>
            if isinstance_IOError e
            then (Normal tt,
                  @MkWorld RefPIL (stdout ref_world ++ ["Generating pixel art...";
                                            "Error: Could not save image to my_pixel_art.png";
                                            "Done!"]%string) fs')
            else (Raised e,
                  @MkWorld RefPIL (stdout ref_world ++ ["Generating pixel art..."%string]) fs')
        end.
Proof.
  apply (main_outcome (pil:=RefPIL) ref_has_size ref_getpixel ref_world).
  exact ref_pil_laws.
Defined.

(** ** More on the pattern *)

Lemma succ_mod_2 (x : Z) : (x + 1) mod 2 <> x mod 2.
Proof.
  pose proof (Z.div_mod x 2). pose proof (Z.div_mod (x + 1) 2).
  pose proof (Z.mod_pos_bound x 2). pose proof (Z.mod_pos_bound (x + 1) 2). lia.
Qed.

Lemma same_parity_succ (x y : Z) :
  ((x + 1) mod 2 =? y mod 2) = negb (x mod 2 =? y mod 2).
Proof.
  pose proof (succ_mod_2 x).
  destruct (mod_2_cases x), (mod_2_cases (x + 1)), (mod_2_cases y);
    destruct (x mod 2 =? y mod 2) eqn:E1, ((x + 1) mod 2 =? y mod 2) eqn:E2; simpl; lia.
Qed.

(** X8 (a checkerboard).  When [palette[0]] and [palette[1]] differ, every
    two cells of the returned grid that are neighbours in a row or in a
    column have different colours. *)
Theorem generate_pixel_data_neighbours_differ {W} (w : W) (width height : Z)
    (palette : list Color) (a b : Color) (grid : PixelGrid) :
  getitem palette 0 = Normal a -> getitem palette 1 = Normal b -> a <> b ->
  generate_pixel_data width height palette w = (Normal grid, w) ->
  (forall x y, 0 <= x -> x + 1 < width -> 0 <= y < height ->
     grid_cell grid x y <> grid_cell grid (x + 1) y) /\
  (forall x y, 0 <= x < width -> 0 <= y -> y + 1 < height ->
     grid_cell grid x y <> grid_cell grid x (y + 1)).
Proof.
  intros H0 H1 Hab Hgen.
  destruct (getitem_0_1 _ _ _ H0 H1) as [rest ->].
  rewrite generate_two in Hgen. injection Hgen as <-.
  split; intros x y ? ? ?; rewrite !grid_cell_checker_grid by lia.
  - rewrite same_parity_succ. destruct (x mod 2 =? y mod 2); simpl; congruence.
  - rewrite (Z.eqb_sym (x mod 2) ((y + 1) mod 2)), same_parity_succ, (Z.eqb_sym (y mod 2)).
    destruct (x mod 2 =? y mod 2); simpl; congruence.
Qed.

Lemma generate_pixel_data_neighbours_differ_witness :
  (forall x y, 0 <= x -> x + 1 < 3 -> 0 <= y < 2 ->
     grid_cell [[(1, 1, 1); (2, 2, 2); (1, 1, 1)]; [(2, 2, 2); (1, 1, 1); (2, 2, 2)]] x y
     <> grid_cell [[(1, 1, 1); (2, 2, 2); (1, 1, 1)]; [(2, 2, 2); (1, 1, 1); (2, 2, 2)]]
          (x + 1) y) /\
  (forall x y, 0 <= x < 3 -> 0 <= y -> y + 1 < 2 ->
     grid_cell [[(1, 1, 1); (2, 2, 2); (1, 1, 1)]; [(2, 2, 2); (1, 1, 1); (2, 2, 2)]] x y
     <> grid_cell [[(1, 1, 1); (2, 2, 2); (1, 1, 1)]; [(2, 2, 2); (1, 1, 1); (2, 2, 2)]]
          x (y + 1)).
Proof.
  apply (generate_pixel_data_neighbours_differ tt 3 2 [(1, 1, 1); (2, 2, 2)]
           (1, 1, 1) (2, 2, 2)).
  - reflexivity.
  - reflexivity.
  - intros [=].
  - reflexivity.
Defined.

(** X9 (the index is a sum modulo 2).  The index chosen by the [if] is
    [(x + y) % 2]; so for a palette of exactly two entries the alternative
    of the comment at line 72, [(x + y) % len(palette)], selects the same
    entries. *)
Theorem color_index_is_sum_mod_len (x y : Z) (palette : list Color) :
  len palette = 2 -> color_index x y = (x + y) mod len palette.
Proof.
  intros ->. unfold color_index, pattern_condition.
  rewrite Z.add_mod by lia.
  by destruct (mod_2_cases x) as [-> | ->], (mod_2_cases y) as [-> | ->].
Qed.

Lemma color_index_is_sum_mod_len_witness :
  color_index 5 8 = (5 + 8) mod len [(50, 50, 50); (200, 200, 200)].
Proof.
  apply (color_index_is_sum_mod_len 5 8 [(50, 50, 50); (200, 200, 200)]).
  reflexivity.
Defined.

(** ** What the writer prints *)

(** X10 (one line, or an exception).  Whatever the grid, the path and the
    behaviour of Pillow, a call of the writer either returns [None] having
    printed exactly one line, or raises having printed nothing. *)
Theorem create_image_from_pixels_prints_one_line {pil : PIL} (world : World)
    (pixel_data : PixelGrid) (output_filename : string) :
  (exists line w',
     create_image_from_pixels pixel_data output_filename world = (Normal tt, w') /\
     stdout w' = stdout world ++ [line]) \/
  (exists e w',
     create_image_from_pixels pixel_data output_filename world = (Raised e, w') /\
     stdout w' = stdout world).
Proof.
  destruct (create_image_from_pixels pixel_data output_filename world) as [r w'] eqn:Hcall.
  revert Hcall. unfold create_image_from_pixels.
  destruct (len pixel_data =? 0) eqn:Hheight.
  { intros [= <- <-]. left. by eexists _, _. }
  unfold bind at 1, eval. destruct (getitem pixel_data 0) as [row_0|e] eqn:Hrow.
  - destruct (len row_0 =? 0) eqn:Hwidth.
    { intros [= <- <-]. left. by eexists _, _. }
    unfold call, bind.
    destruct (paint pixel_data (len row_0) (len pixel_data)
                (world, Image_new (len row_0) (len pixel_data)))
      as [[[]|e] [w1 img]] eqn:Hpaint;
      apply paint_keeps_world in Hpaint; simpl in Hpaint; subst w1.
    + pose proof (save_and_report_reported output_filename world img) as Hrep.
      destruct (save_and_report output_filename (world, img)) as [r2 [w2 img2]].
      simpl in Hrep. intros [= <- <-]. revert Hrep. unfold reported.
      destruct (save img output_filename (fs world)) as [[[]|e] fs'].
      * intros [= -> ->]. left. by eexists _, _.
      * destruct (isinstance_IOError e); intros [= -> ->];
          [left | right]; by eexists _, _.
    + intros [= <- <-]. right. by eexists _, _.
  - intros [= <- <-]. right. by eexists _, _.
Qed.

(** X11 (the generator's degenerate grids reach the guards).  For a
    non-positive height the grid that [generate_pixel_data] returns is
    reported by the writer as ["Error: Pixel data is empty."], and for a
    non-positive width with a positive height as
    ["Error: Pixel data rows are empty."]; in both cases the writer returns
    [None] and the file system is untouched. *)
Theorem degenerate_grid_reported {pil : PIL} (world : World) (width height : Z)
    (palette : list Color) (output_filename : string) :
  height <= 0 \/ width <= 0 ->
  exists grid,
    generate_pixel_data width height palette world = (Normal grid, world) /\
    create_image_from_pixels grid output_filename world
    = (Normal tt,
       MkWorld (stdout world ++ [if height <=? 0
                                 then "Error: Pixel data is empty."%string
                                 else "Error: Pixel data rows are empty."%string])
               (fs world)).
Proof.
  intros Hdim. destruct (Z_le_gt_dec height 0) as [Hh | Hh].
  - exists []. split; [by apply generate_no_rows|].
    by destruct (height <=? 0) eqn:E; [|lia].
  - destruct Hdim as [? | Hw]; [lia|].
    exists (replicate (Z.to_nat height) []). split; [by apply generate_no_columns|].
    destruct (height <=? 0) eqn:E; [lia|].
    unfold create_image_from_pixels.
    assert (len (replicate (Z.to_nat height) ([] : list Color)) = height) as ->
      by (unfold len; rewrite length_replicate; lia).
    destruct (height =? 0) eqn:E0; [lia|].
    assert (getitem (replicate (Z.to_nat height) ([] : list Color)) 0 = Normal []) as Hrow.
    { unfold getitem. simpl. by rewrite lookup_replicate_2 by lia. }
    unfold bind, eval. by rewrite Hrow.
Qed.

Lemma degenerate_grid_reported_witness :
  exists grid,
    generate_pixel_data 0 3 COLOR_PALETTE ref_world = (Normal grid, ref_world) /\
    create_image_from_pixels (pil:=RefPIL) grid "art.png" ref_world
    = (Normal tt,
       @MkWorld RefPIL
         (stdout ref_world ++ [if 3 <=? 0
                               then "Error: Pixel data is empty."%string
                               else "Error: Pixel data rows are empty."%string])
         (fs ref_world)).
Proof.
  apply (degenerate_grid_reported (pil:=RefPIL) ref_world 0 3 COLOR_PALETTE "art.png").
  right. lia.
Defined.
